(** * phone-normalizer: the normalization engine and its configuration registry

    Shallow embedding of [src/app/components/phone-engine-demo.tsx]:
    the pure function [phoneEngine] (lines 22-64) and the three state
    handlers of the component that own the per-country configurations
    (lines 69-106).

    Conventions of the embedding.
    - A JavaScript string is a [string] holding its UTF-8 bytes.  The only
      character-level operations of the source, [startsWith("0")] and
      [replaceAll(' ', '')], look for one ASCII character, which never
      occurs inside a multi-byte sequence, so they act on the bytes as they
      act on the UTF-16 code units.
    - A property that may be absent from an object is an [option]; reading
      it yields [None] where JavaScript yields [undefined].
    - An object used as a dictionary ([Configs]) is a [gmap string _].
    - A call that may throw returns a [completion]; [try]/[catch] is a
      match on it. *)

From Stdlib Require Import Ascii.
From stdpp Require Import base option strings gmap fin_maps.

Local Open Scope string_scope.

(** ** Completions: a call either returns a value or throws *)

Inductive completion (A : Type) : Type :=
  | Return (a : A)
  | Throw (error : string).
Arguments Return {A} a.
Arguments Throw {A} error.

(** ** Data model *)

(** The object held in [config] and stored in the dictionary.  The interface
    [CountryConfig] (lines 13-16) declares [trunkPrefix] and
    [addLeadingZero] only; the objects that [handleAddConfig] stores carry a
    [country] property as well.  [country = None] is an object of exactly
    the declared shape. *)
Record CountryConfig : Type := mkConfig {
  country : option string;
  trunkPrefix : string;
  addLeadingZero : bool
}.

(** [interface Configs { [key: string]: CountryConfig }] (lines 18-20). *)
Abbreviation Configs := (gmap string CountryConfig).

(** The second argument of [phoneEngine], [options = {}]: any subset of the
    three properties. *)
Record Options : Type := mkOptions {
  opt_country : option string;
  opt_trunkPrefix : option string;
  opt_addLeadingZero : option bool
}.

(** The [PhoneNumber] object of libphonenumber-js, as far as [phoneEngine]
    reads it: the properties [country] and [nationalNumber], and the values
    of the method calls [isValid()], [isPossible()] and [format('E.164')].
    The three methods are read as values: on a number the parser returned
    they return and do not throw.  [country] is [None] for a number without
    a country of its own (a non-geographic one). *)
Module PhoneNumber.
Record t : Type := mk {
  country : option string;
  nationalNumber : string;
  isValid : bool;
  isPossible : bool;
  format_E164 : string
}.
End PhoneNumber.

(** The object [phoneEngine] returns. *)
Record Result : Type := mkResult {
  e164 : string;
  forAsterisk : string;
  isValid : bool
}.

(** The external parser, [parsePhoneNumber(number, country)]: it throws,
    returns [undefined], or returns a [PhoneNumber]. *)
Definition Parser : Type :=
  string → option string → completion (option PhoneNumber.t).

(** ** String primitives of the source *)

(** [s.startsWith(searchString)] *)
Definition startsWith (s searchString : string) : bool :=
  String.prefix searchString s.

(** [s.replaceAll(' ', '')]: every U+0020 is dropped, nothing else. *)
Fixpoint replaceAll_space (s : string) : string :=
  match s with
  | EmptyString => EmptyString
  | String c rest =>
      if bool_decide (c = " "%char) then replaceAll_space rest
      else String c (replaceAll_space rest)
  end.

(** Truthiness of a string: the empty string is falsy. *)
Definition truthy (s : string) : bool :=
  match s with
  | EmptyString => false
  | String _ _ => true
  end.

(** The property key a value becomes in [countryConfigs[k]]: a string is its
    own key, [undefined] is the key ["undefined"]. *)
Definition property_key (k : option string) : string :=
  match k with
  | Some s => s
  | None => "undefined"
  end.

(** ** phoneEngine (lines 22-64) *)

(** Lines 24-29: [{country: "", trunkPrefix: "", addLeadingZero: false,
    ...options}]. *)
Definition default_config (options : Options) : CountryConfig :=
  {| country := Some (default "" (opt_country options));
     trunkPrefix := default "" (opt_trunkPrefix options);
     addLeadingZero := default false (opt_addLeadingZero options) |}.

(** The hint the parser is called with on line 34, [config.country]. *)
Definition hint (options : Options) : option string :=
  country (default_config options).

(** Lines 44-46: an object is always truthy, so the test is whether the
    dictionary has the key. *)
Definition override_config (config : CountryConfig)
    (countryConfigs : Configs) (phoneNumber : PhoneNumber.t) : CountryConfig :=
  match countryConfigs !! property_key (PhoneNumber.country phoneNumber) with
  | Some entry => entry
  | None => config
  end.

(** Lines 48-52. *)
Definition processedNumber (config : CountryConfig) (nationalNumber : string)
    : string :=
  if addLeadingZero config && negb (startsWith nationalNumber "0")
  then "0" +:+ nationalNumber
  else nationalNumber.

(** Lines 55-57, the candidate dial string. *)
Definition candidate (config : CountryConfig) (phoneNumber : PhoneNumber.t)
    : string :=
  let processed := processedNumber config (PhoneNumber.nationalNumber phoneNumber) in
  if truthy (trunkPrefix config)
  then trunkPrefix config +:+ processed
  else processed.

(** Line 61, the test [phoneNumber.country === config.country]. *)
Definition country_matches (config : CountryConfig)
    (phoneNumber : PhoneNumber.t) : bool :=
  bool_decide (PhoneNumber.country phoneNumber = country config).

(** Lines 48-63: what is returned for a parsed number under the config in
    force. *)
Definition finish (number : string) (config : CountryConfig)
    (phoneNumber : PhoneNumber.t) : Result :=
  let forAsterisk := candidate config phoneNumber in
  let isValid :=
    PhoneNumber.isValid phoneNumber && PhoneNumber.isPossible phoneNumber in
  {| e164 := if isValid then PhoneNumber.format_E164 phoneNumber else "---";
     forAsterisk :=
       if isValid && country_matches config phoneNumber
       then forAsterisk
       else replaceAll_space number;
     isValid := isValid |}.

(** Lines 37 and 41. *)
Definition unparsed : Result :=
  {| e164 := ""; forAsterisk := ""; isValid := false |}.

Definition phoneEngine (parsePhoneNumber : Parser) (number : string)
    (options : Options) (countryConfigs : Configs) : completion Result :=
  let config := default_config options in
  match parsePhoneNumber number (country config) with
  | Throw error => Return unparsed
  | Return None => Return unparsed
  | Return (Some phoneNumber) =>
      let config := override_config config countryConfigs phoneNumber in
      Return (finish number config phoneNumber)
  end.

(** ** The component state and its handlers (lines 69-106)

    [useState] cells are fields of a record; a handler is a function from
    the state before the event to the state after it. *)

Record State : Type := mkState {
  config : CountryConfig;
  countryConfigs : Configs;
  defaultConfig : string
}.

(** Lines 69-75. *)
Definition initial_state : State :=
  {| config := {| country := Some "EG"; trunkPrefix := ""; addLeadingZero := false |};
     countryConfigs := ∅;
     defaultConfig := "EG" |}.

(** Lines 92-97: [{...countryConfigs, [config.country]: config}].  The whole
    form object is stored, its [country] property included. *)
Definition handleAddConfig (s : State) : State :=
  {| config := config s;
     countryConfigs :=
       <[property_key (country (config s)) := config s]> (countryConfigs s);
     defaultConfig := defaultConfig s |}.

(** The fallback of line 104. *)
Definition fallback_country : string := "EG".

(** Lines 99-106. *)
Definition handleRemoveConfig (key : string) (s : State) : State :=
  let newConfigs := delete key (countryConfigs s) in
  {| config := config s;
     countryConfigs := newConfigs;
     defaultConfig :=
       if bool_decide (defaultConfig s = key) then fallback_country
       else defaultConfig s |}.

(** Line 220, [onValueChange={(value) => setDefaultConfig(value)}]. *)
Definition setDefaultConfig (value : string) (s : State) : State :=
  {| config := config s;
     countryConfigs := countryConfigs s;
     defaultConfig := value |}.

(** Lines 159, 177 and 186, [setConfig({...config, ...})]: the form object
    is replaced. *)
Definition setConfig (form : CountryConfig) (s : State) : State :=
  {| config := form;
     countryConfigs := countryConfigs s;
     defaultConfig := defaultConfig s |}.

(** An object passed as [options]: the properties it has are spread. *)
Definition options_of_object (o : CountryConfig) : Options :=
  {| opt_country := country o;
     opt_trunkPrefix := Some (trunkPrefix o);
     opt_addLeadingZero := Some (addLeadingZero o) |}.

(** The empty object [{}]. *)
Definition no_options : Options :=
  {| opt_country := None; opt_trunkPrefix := None; opt_addLeadingZero := None |}.

(** Line 79, the argument [countryConfigs[defaultConfig] || {}]. *)
Definition default_options (s : State) : Options :=
  match countryConfigs s !! defaultConfig s with
  | Some o => options_of_object o
  | None => no_options
  end.

(** Lines 77-85: the value given to [setResult]; [None] is [null]. *)
Definition handleProcess (parsePhoneNumber : Parser) (phoneNumber : string)
    (s : State) : option Result :=
  match phoneEngine parsePhoneNumber phoneNumber (default_options s)
          (countryConfigs s) with
  | Return processed => Some processed
  | Throw error => None
  end.

(** ** The events of the settings cards (lines 150-233)

    What the user can do to the three cells is read off the JSX: each
    control calls one handler, with a value the control offers. *)

(** Line 159, [setConfig({ ...config, country: value })]. *)
Definition onCountryChange (value : string) (s : State) : State :=
  setConfig {| country := Some value;
               trunkPrefix := trunkPrefix (config s);
               addLeadingZero := addLeadingZero (config s) |} s.

(** Line 177, [setConfig({ ...config, trunkPrefix: e.target.value })]. *)
Definition onTrunkPrefixChange (value : string) (s : State) : State :=
  setConfig {| country := country (config s);
               trunkPrefix := value;
               addLeadingZero := addLeadingZero (config s) |} s.

(** Line 186, [setConfig({ ...config, addLeadingZero: checked })]. *)
Definition onAddLeadingZeroChange (checked : bool) (s : State) : State :=
  setConfig {| country := country (config s);
               trunkPrefix := trunkPrefix (config s);
               addLeadingZero := checked |} s.

(** The items of the country select (lines 165-167). *)
Definition country_items : list string := ["EG"; "US"; "SA"].

Inductive Event : Type :=
  | SelectCountry (value : string)
  | TypeTrunkPrefix (value : string)
  | SwitchLeadingZero (checked : bool)
  | ClickAdd
  | ClickRemove (key : string)
  | SelectDefault (value : string).

(** Whether the rendered page offers the event: the country select has the
    three items of [country_items]; a Remove button exists for each entry
    of the dictionary (lines 198-207); the default select lists the keys of
    the dictionary (lines 226-228). *)
Definition available (e : Event) (s : State) : bool :=
  match e with
  | SelectCountry value => bool_decide (value ∈ country_items)
  | TypeTrunkPrefix _ => true
  | SwitchLeadingZero _ => true
  | ClickAdd => true
  | ClickRemove key => bool_decide (is_Some (countryConfigs s !! key))
  | SelectDefault value => bool_decide (is_Some (countryConfigs s !! value))
  end.

(** The handler each control is wired to. *)
Definition dispatch (e : Event) (s : State) : State :=
  match e with
  | SelectCountry value => onCountryChange value s
  | TypeTrunkPrefix value => onTrunkPrefixChange value s
  | SwitchLeadingZero checked => onAddLeadingZeroChange checked s
  | ClickAdd => handleAddConfig s
  | ClickRemove key => handleRemoveConfig key s
  | SelectDefault value => setDefaultConfig value s
  end.

(** The states the page can be in: the initial one, and those an offered
    event leads to. *)
Inductive reachable : State → Prop :=
  | reachable_initial : reachable initial_state
  | reachable_step s e :
      reachable s → available e s = true → reachable (dispatch e s).

(** Running a list of events from a state, skipping none: [None] when an
    event is not offered in the state it meets. *)
Fixpoint run (events : list Event) (s : State) : option State :=
  match events with
  | [] => Some s
  | e :: rest => if available e s then run rest (dispatch e s) else None
  end.

(** What the entries of a mounted page look like: each stored object
    carries its own key as [country], and the key is an item of the country
    select. *)
Definition stored_under_own_country (configs : Configs) : Prop :=
  ∀ key entry, configs !! key = Some entry →
    country entry = Some key ∧ key ∈ country_items.

(** The invariant of the page: the form's country is an item of the country
    select, the entries are stored under their own country, and the default
    names an entry or is the fallback. *)
Definition well_formed (s : State) : Prop :=
  (∃ c, country (config s) = Some c ∧ c ∈ country_items)
  ∧ stored_under_own_country (countryConfigs s)
  ∧ (is_Some (countryConfigs s !! defaultConfig s)
     ∨ defaultConfig s = fallback_country).

(** ** Stand-ins for the external parser, used at concrete inputs *)

(** A parser that knows one number and throws on every other input. *)
Definition parser_knowing (raw : string) (parsed : PhoneNumber.t) : Parser :=
  fun number hint =>
    if bool_decide (number = raw) then Return (Some parsed)
    else Throw "NOT_A_NUMBER".

(** A parser that throws on every input. *)
Definition parser_rejecting : Parser :=
  fun number hint => Throw "NOT_A_NUMBER".

Definition tab : ascii := ascii_of_nat 9.

Definition eg_mobile : PhoneNumber.t :=
  {| PhoneNumber.country := Some "EG";
     PhoneNumber.nationalNumber := "1012345678";
     PhoneNumber.isValid := true;
     PhoneNumber.isPossible := true;
     PhoneNumber.format_E164 := "+201012345678" |}.

Definition us_number : PhoneNumber.t :=
  {| PhoneNumber.country := Some "US";
     PhoneNumber.nationalNumber := "4155550100";
     PhoneNumber.isValid := true;
     PhoneNumber.isPossible := true;
     PhoneNumber.format_E164 := "+14155550100" |}.

(** [{country: "EG"}] *)
Definition hint_EG : Options :=
  {| opt_country := Some "EG"; opt_trunkPrefix := None; opt_addLeadingZero := None |}.

(** [{trunkPrefix: "0", addLeadingZero: false}], the declared shape. *)
Definition eg_entry_declared : CountryConfig :=
  {| country := None; trunkPrefix := "0"; addLeadingZero := false |}.

(** [{country: "EG", trunkPrefix: "0", addLeadingZero: false}], the object
    [handleAddConfig] stores from the form. *)
Definition eg_entry_stored : CountryConfig :=
  {| country := Some "EG"; trunkPrefix := "0"; addLeadingZero := false |}.

(** The number of the example, as typed. *)
Definition eg_raw : string := "+20 101 234 5678".

(** A pasted number that ends in a tab; the parser drops what follows the
    last digit and reads the same number. *)
Definition us_raw_tab : string := "+1 415 555 0100" +:+ String tab "".

(** A caller config for country US with fields of its own. *)
Definition caller_US : Options :=
  {| opt_country := Some "US";
     opt_trunkPrefix := Some "9";
     opt_addLeadingZero := Some true |}.

(** The state after the form [{country: "EG", trunkPrefix: "0",
    addLeadingZero: false}] was added to the initial dictionary. *)
Definition eg_added : State :=
  handleAddConfig (setConfig eg_entry_stored initial_state).

(** A config with the leading-zero flag set. *)
Definition leading_zero_config : CountryConfig :=
  {| country := Some "EG"; trunkPrefix := ""; addLeadingZero := true |}.

(** Entries for EG and US, and US chosen as the default. *)
Definition us_default : State :=
  setDefaultConfig "US"
    (handleAddConfig
       (setConfig {| country := Some "US"; trunkPrefix := "9"; addLeadingZero := false |}
          eg_added)).

(** A number the parser reads but reports neither valid nor possible. *)
Definition eg_short_raw : string := "+20 12".

Definition eg_short : PhoneNumber.t :=
  {| PhoneNumber.country := Some "EG";
     PhoneNumber.nationalNumber := "12";
     PhoneNumber.isValid := false;
     PhoneNumber.isPossible := false;
     PhoneNumber.format_E164 := "+2012" |}.

(** A caller config for country EG with fields of its own. *)
Definition caller_EG : Options :=
  {| opt_country := Some "EG";
     opt_trunkPrefix := Some "9";
     opt_addLeadingZero := Some true |}.

(** The form with another trunk prefix for EG. *)
Definition eg_entry_revised : CountryConfig :=
  {| country := Some "EG"; trunkPrefix := "00"; addLeadingZero := true |}.

(** The form that [us_default] added for US. *)
Definition us_entry_stored : CountryConfig :=
  {| country := Some "US"; trunkPrefix := "9"; addLeadingZero := false |}.

(** The clicks that lead from the initial page to [us_default]. *)
Definition us_default_events : list Event :=
  [TypeTrunkPrefix "0"; ClickAdd;
   SelectCountry "US"; TypeTrunkPrefix "9"; ClickAdd;
   SelectDefault "US"].

(** A number without a country of its own, an international freephone
    number, as typed and as parsed. *)
Definition freephone_raw : string := "+800 1234 5678".

Definition freephone : PhoneNumber.t :=
  {| PhoneNumber.country := None;
     PhoneNumber.nationalNumber := "12345678";
     PhoneNumber.isValid := true;
     PhoneNumber.isPossible := true;
     PhoneNumber.format_E164 := "+80012345678" |}.

(** A dictionary whose one entry has the declared shape and sits under
    the key that [undefined] becomes. *)
Definition undefined_keyed : Configs := {[ "undefined" := eg_entry_declared ]}.

(** The spec's wording of the fallback dial string, "raw with all
    whitespace characters removed", over the ASCII whitespace characters
    (tab, line feed, vertical tab, form feed, carriage return, space).  It
    is compared with [replaceAll_space], which is what line 61 computes. *)
Definition is_whitespace (c : ascii) : bool :=
  bool_decide (nat_of_ascii c ∈ [9; 10; 11; 12; 13; 32]).

Fixpoint spec_remove_whitespace (s : string) : string :=
  match s with
  | EmptyString => EmptyString
  | String c rest =>
      if is_whitespace c then spec_remove_whitespace rest
      else String c (spec_remove_whitespace rest)
  end.

(** * Properties of [phoneEngine] *)

Section Engine.
Variable parsePhoneNumber : Parser.

Implicit Types (number : string) (options : Options)
  (configs : Configs) (phoneNumber : PhoneNumber.t).

Lemma hint_is_string options :
  hint options = Some (default "" (opt_country options)).
Proof. reflexivity. Qed.

Lemma phoneEngine_parsed number options configs phoneNumber :
  parsePhoneNumber number (hint options) = Return (Some phoneNumber) →
  phoneEngine parsePhoneNumber number options configs
  = Return (finish number
              (override_config (default_config options) configs phoneNumber)
              phoneNumber).
Proof. unfold phoneEngine, hint. intros ->. reflexivity. Qed.

Lemma phoneEngine_thrown number options configs error :
  parsePhoneNumber number (hint options) = Throw error →
  phoneEngine parsePhoneNumber number options configs = Return unparsed.
Proof. unfold phoneEngine, hint. intros ->. reflexivity. Qed.

Lemma phoneEngine_undefined number options configs :
  parsePhoneNumber number (hint options) = Return None →
  phoneEngine parsePhoneNumber number options configs = Return unparsed.
Proof. unfold phoneEngine, hint. intros ->. reflexivity. Qed.

(** No [Throw] leaves [phoneEngine]. *)
Lemma phoneEngine_returns number options configs :
  ∃ result, phoneEngine parsePhoneNumber number options configs = Return result.
Proof.
  unfold phoneEngine.
  destruct (parsePhoneNumber number _) as [[phoneNumber|]|error]; eauto.
Qed.

Lemma override_config_entry config configs phoneNumber B entry :
  PhoneNumber.country phoneNumber = Some B →
  configs !! B = Some entry →
  override_config config configs phoneNumber = entry.
Proof. unfold override_config. intros -> Hentry. simpl. by rewrite Hentry. Qed.

Lemma override_config_miss config configs phoneNumber :
  configs !! property_key (PhoneNumber.country phoneNumber) = None →
  override_config config configs phoneNumber = config.
Proof. unfold override_config. by intros ->. Qed.

Lemma forAsterisk_finish number config phoneNumber :
  forAsterisk (finish number config phoneNumber)
  = if PhoneNumber.isValid phoneNumber && PhoneNumber.isPossible phoneNumber
       && country_matches config phoneNumber
    then candidate config phoneNumber
    else replaceAll_space number.
Proof. reflexivity. Qed.

(** C1. When the parser resolves the number to country [B] and the
    dictionary has an entry for [B], that entry becomes the config as a
    whole, and the result is the tail of the function run on the entry:
    two callers whose options differ in any field obtain the same result
    whenever the parser gives them the same number. *)
Theorem registry_entry_replaces_config
    number options options' configs phoneNumber B entry :
  parsePhoneNumber number (hint options) = Return (Some phoneNumber) →
  parsePhoneNumber number (hint options') = Return (Some phoneNumber) →
  PhoneNumber.country phoneNumber = Some B →
  configs !! B = Some entry →
  override_config (default_config options) configs phoneNumber = entry
  ∧ phoneEngine parsePhoneNumber number options configs
    = Return (finish number entry phoneNumber)
  ∧ phoneEngine parsePhoneNumber number options' configs
    = phoneEngine parsePhoneNumber number options configs.
Proof.
  intros Hparse Hparse' HB Hentry.
  pose proof (override_config_entry (default_config options) configs
                phoneNumber B entry HB Hentry) as Hover.
  pose proof (override_config_entry (default_config options') configs
                phoneNumber B entry HB Hentry) as Hover'.
  split; [exact Hover|].
  rewrite (phoneEngine_parsed _ _ _ _ Hparse), Hover.
  split; [reflexivity|].
  by rewrite (phoneEngine_parsed _ _ _ _ Hparse'), Hover'.
Qed.

(** C2, as the code has it.  For a number the parser reports valid and
    possible: when the detected country differs from the country of the
    config in force after the override, [forAsterisk] is the input with
    its U+0020 characters removed, whatever the trunk prefix and the
    leading-zero flag; when the two are equal it is the candidate. *)
Theorem country_gate_of_dial_format number options configs phoneNumber :
  parsePhoneNumber number (hint options) = Return (Some phoneNumber) →
  PhoneNumber.isValid phoneNumber = true →
  PhoneNumber.isPossible phoneNumber = true →
  ∃ result,
    phoneEngine parsePhoneNumber number options configs = Return result
    ∧ let config := override_config (default_config options) configs phoneNumber in
      (PhoneNumber.country phoneNumber ≠ country config →
         forAsterisk result = replaceAll_space number)
      ∧ (PhoneNumber.country phoneNumber = country config →
         forAsterisk result = candidate config phoneNumber).
Proof.
  intros Hparse Hvalid Hpossible.
  eexists. split; [by apply phoneEngine_parsed|].
  cbv zeta. rewrite forAsterisk_finish, Hvalid, Hpossible. simpl.
  unfold country_matches. split; intros Hcountry.
  - by rewrite bool_decide_eq_false_2.
  - by rewrite bool_decide_eq_true_2.
Qed.

(** C4, as the code has it.  [phoneEngine] returns a result for every
    input and never throws; when the parser throws, the result has
    [isValid = false], [e164 = ""] and [forAsterisk = ""]. *)
Theorem fail_soft_totality number options configs :
  ∃ result,
    phoneEngine parsePhoneNumber number options configs = Return result
    ∧ ∀ error,
        parsePhoneNumber number (hint options) = Throw error →
        isValid result = false ∧ e164 result = "" ∧ forAsterisk result = "".
Proof.
  destruct (parsePhoneNumber number (hint options))
    as [[phoneNumber|]|error] eqn:Hparse.
  - eexists. split; [by apply phoneEngine_parsed|]. intros error [=].
  - eexists. split; [by apply phoneEngine_undefined|]. intros error [=].
  - exists unparsed. split; [by eapply phoneEngine_thrown|]. done.
Qed.

(** C5. When the parser throws or returns [undefined], [phoneEngine]
    returns exactly [{e164: '', forAsterisk: '', isValid: false}]; the
    thrown error is caught. *)
Theorem unparseable_short_circuit number options configs :
  (∃ error, parsePhoneNumber number (hint options) = Throw error)
  ∨ parsePhoneNumber number (hint options) = Return None →
  phoneEngine parsePhoneNumber number options configs
  = Return {| e164 := ""; forAsterisk := ""; isValid := false |}.
Proof.
  intros [[error Hthrow]|Hnone].
  - by eapply phoneEngine_thrown.
  - by apply phoneEngine_undefined.
Qed.

(** C6. For a parsed number, the result's [isValid] is the conjunction of
    [isValid()] and [isPossible()], and its [e164] is [format('E.164')]
    when the conjunction holds and ["---"] otherwise. *)
Theorem validity_and_e164 number options configs phoneNumber :
  parsePhoneNumber number (hint options) = Return (Some phoneNumber) →
  ∃ result,
    phoneEngine parsePhoneNumber number options configs = Return result
    ∧ isValid result
      = PhoneNumber.isValid phoneNumber && PhoneNumber.isPossible phoneNumber
    ∧ e164 result
      = if PhoneNumber.isValid phoneNumber && PhoneNumber.isPossible phoneNumber
        then PhoneNumber.format_E164 phoneNumber
        else "---".
Proof.
  intros Hparse. eexists.
  split; [by apply phoneEngine_parsed|]. split; reflexivity.
Qed.

(** C10, as the code has it.  If every entry of the dictionary has exactly
    the declared shape (no [country] property), the parsed number has a
    country and that country is a key of the dictionary, the comparison of
    line 61 is false, and [forAsterisk] is the input with its space
    characters removed. *)
Theorem declared_shape_never_matches
    number options configs phoneNumber B entry :
  (∀ key e, configs !! key = Some e → country e = None) →
  parsePhoneNumber number (hint options) = Return (Some phoneNumber) →
  PhoneNumber.country phoneNumber = Some B →
  configs !! B = Some entry →
  country_matches
    (override_config (default_config options) configs phoneNumber)
    phoneNumber = false
  ∧ ∃ result,
      phoneEngine parsePhoneNumber number options configs = Return result
      ∧ forAsterisk result = replaceAll_space number.
Proof.
  intros Hshape Hparse HB Hentry.
  rewrite (phoneEngine_parsed _ _ _ _ Hparse).
  rewrite (override_config_entry _ _ _ _ _ HB Hentry).
  assert (country_matches entry phoneNumber = false) as Hgate.
  { unfold country_matches. rewrite HB, (Hshape _ _ Hentry).
    by apply bool_decide_eq_false_2. }
  split; [exact Hgate|].
  eexists. split; [reflexivity|].
  rewrite forAsterisk_finish, Hgate. by rewrite andb_false_r.
Qed.

End Engine.

(** * The leading-zero step *)

Lemma startsWith_zero_cons s : startsWith (String "0" s) "0" = true.
Proof. unfold startsWith. simpl. by destruct s. Qed.

(** C7. With [addLeadingZero] set: a number that does not start with ['0']
    gets exactly one ['0'] in front, a number that starts with ['0'] is
    left as it is, and running the step on its own output changes
    nothing. *)
Theorem leading_zero_idempotent (config : CountryConfig) (nationalNumber : string) :
  addLeadingZero config = true →
  (startsWith nationalNumber "0" = false →
     processedNumber config nationalNumber = String "0" nationalNumber)
  ∧ (startsWith nationalNumber "0" = true →
     processedNumber config nationalNumber = nationalNumber)
  ∧ processedNumber config (processedNumber config nationalNumber)
    = processedNumber config nationalNumber.
Proof.
  intros Hflag. unfold processedNumber. rewrite Hflag.
  destruct (startsWith nationalNumber "0") eqn:Hzero.
  - cbn [negb andb]. rewrite Hzero. by cbn [negb andb].
  - cbn [negb andb]. change ("0" +:+ nationalNumber) with (String "0" nationalNumber).
    rewrite startsWith_zero_cons. by cbn [negb andb].
Qed.

(** * Properties of the configuration handlers *)

Section Registry.
Implicit Types (s : State) (key value : string).

Lemma handleRemoveConfig_lookup key s :
  countryConfigs (handleRemoveConfig key s) !! key = None.
Proof. simpl. apply lookup_delete_eq. Qed.

Lemma handleRemoveConfig_default key s :
  defaultConfig (handleRemoveConfig key s)
  = if bool_decide (defaultConfig s = key) then fallback_country
    else defaultConfig s.
Proof. reflexivity. Qed.

(** C8, as the code has it.  Removing the country that is the current
    default sets the default to the fallback ["EG"] and leaves no entry
    under the removed key; the new default differs from the removed key
    whenever that key is not the fallback itself. *)
Theorem remove_default_resets key s :
  defaultConfig s = key →
  defaultConfig (handleRemoveConfig key s) = fallback_country
  ∧ countryConfigs (handleRemoveConfig key s) !! key = None
  ∧ (key ≠ fallback_country →
     defaultConfig (handleRemoveConfig key s) ≠ key).
Proof.
  intros Hdefault.
  assert (defaultConfig (handleRemoveConfig key s) = fallback_country) as Hreset.
  { rewrite handleRemoveConfig_default. by rewrite bool_decide_eq_true_2. }
  split; [exact Hreset|]. split; [apply handleRemoveConfig_lookup|].
  intros Hkey. rewrite Hreset. congruence.
Qed.

(** C9. The handlers are functions defined on every state and every key:
    removing a key that has no entry leaves the dictionary as it was, and
    the default after a removal is the old default or the fallback; adding
    stores the form under its country, replacing what was there, and
    touches no other key; the default can be set to any key, known or
    not; and a default that names no entry is read as the empty options
    object. *)
Theorem registry_operations_total s key value :
  (countryConfigs s !! key = None →
     countryConfigs (handleRemoveConfig key s) = countryConfigs s)
  ∧ (defaultConfig (handleRemoveConfig key s) = defaultConfig s
     ∨ defaultConfig (handleRemoveConfig key s) = fallback_country)
  ∧ countryConfigs (handleAddConfig s) !! property_key (country (config s))
    = Some (config s)
  ∧ (key ≠ property_key (country (config s)) →
     countryConfigs (handleAddConfig s) !! key = countryConfigs s !! key)
  ∧ (defaultConfig (setDefaultConfig value s) = value
     ∧ countryConfigs (setDefaultConfig value s) = countryConfigs s)
  ∧ (countryConfigs s !! defaultConfig s = None →
     default_options s = no_options).
Proof.
  split_and!.
  - intros Habsent. simpl. by apply delete_id.
  - rewrite handleRemoveConfig_default. case_bool_decide; auto.
  - simpl. apply lookup_insert_eq.
  - intros Hne. simpl. by apply lookup_insert_ne.
  - reflexivity.
  - reflexivity.
  - unfold default_options. by intros ->.
Qed.

End Registry.

(** * The engine at concrete inputs *)

(** The example on an object with the two declared properties and nothing
    else, [{trunkPrefix: "0", addLeadingZero: false}], which the page never
    stores: the entry replaces the config, the config in force has no
    [country], the comparison of line 61 fails, and [forAsterisk] is the
    input without its spaces. *)
Theorem egyptian_example_declared_entry :
  phoneEngine (parser_knowing eg_raw eg_mobile) eg_raw hint_EG
    {[ "EG" := eg_entry_declared ]}
  = Return {| e164 := "+201012345678";
              forAsterisk := "+201012345678";
              isValid := true |}.
Proof. vm_compute. reflexivity. Qed.

(** The same example with the entry as [handleAddConfig] stores it, which
    carries [country: "EG"]: the expected dial string comes out. *)
Example egyptian_example_stored_entry :
  phoneEngine (parser_knowing eg_raw eg_mobile) eg_raw hint_EG
    {[ "EG" := eg_entry_stored ]}
  = Return {| e164 := "+201012345678";
              forAsterisk := "01012345678";
              isValid := true |}.
Proof. vm_compute. reflexivity. Qed.

(** And through the component: add the form, then press Normalize. *)
Example egyptian_example_through_handlers :
  handleProcess (parser_knowing eg_raw eg_mobile) eg_raw eg_added
  = Some {| e164 := "+201012345678";
            forAsterisk := "01012345678";
            isValid := true |}.
Proof. vm_compute. reflexivity. Qed.

(** A number without a country (a non-geographic one) looks up the key
    ["undefined"]; an entry of the declared shape stored under that key
    then passes the comparison of line 61, [undefined === undefined]. *)
Example undefined_country_key :
  let phoneNumber :=
    {| PhoneNumber.country := None;
       PhoneNumber.nationalNumber := "12345678";
       PhoneNumber.isValid := true;
       PhoneNumber.isPossible := true;
       PhoneNumber.format_E164 := "+80012345678" |} in
  phoneEngine (parser_knowing "+800 1234 5678" phoneNumber) "+800 1234 5678"
    no_options {[ "undefined" := eg_entry_declared ]}
  = Return {| e164 := "+80012345678";
              forAsterisk := "012345678";
              isValid := true |}.
Proof. vm_compute. reflexivity. Qed.

(** C2 as stated fails: a valid US number under the hint EG and an empty
    dictionary, typed with a trailing tab.  The countries differ, and
    [forAsterisk] keeps the tab, while the input with all whitespace
    removed does not have it. *)
Lemma tab_survives_in_dial_format :
  parser_knowing us_raw_tab us_number us_raw_tab (hint hint_EG)
  = Return (Some us_number)
  ∧ PhoneNumber.isValid us_number = true
  ∧ PhoneNumber.isPossible us_number = true
  ∧ PhoneNumber.country us_number
    ≠ country (override_config (default_config hint_EG) ∅ us_number)
  ∧ phoneEngine (parser_knowing us_raw_tab us_number) us_raw_tab hint_EG ∅
    = Return {| e164 := "+14155550100";
                forAsterisk := "+14155550100" +:+ String tab "";
                isValid := true |}
  ∧ spec_remove_whitespace us_raw_tab = "+14155550100"
  ∧ "+14155550100" +:+ String tab "" ≠ spec_remove_whitespace us_raw_tab.
Proof. vm_compute. split_and!; done. Qed.

(** C4 as stated fails: when the parser throws, [e164] is the empty string,
    not ["---"]. *)
Lemma rejected_input_has_empty_e164 :
  parser_rejecting "abc" (hint hint_EG) = Throw "NOT_A_NUMBER"
  ∧ phoneEngine parser_rejecting "abc" hint_EG ∅
    = Return {| e164 := ""; forAsterisk := ""; isValid := false |}
  ∧ ¬ (∃ result,
         phoneEngine parser_rejecting "abc" hint_EG ∅ = Return result
         ∧ e164 result = "---").
Proof.
  split_and!; [reflexivity..|].
  intros (result & [= <-] & Hsentinel). discriminate Hsentinel.
Qed.

(** C8 as stated fails in its second half: with an entry for EG and EG the
    default, removing EG leaves the default at ["EG"], the key of the entry
    that was just removed, which the dictionary no longer has. *)
Lemma removed_fallback_stays_default :
  countryConfigs eg_added !! "EG" = Some eg_entry_stored
  ∧ defaultConfig eg_added = "EG"
  ∧ defaultConfig (handleRemoveConfig "EG" eg_added) = "EG"
  ∧ countryConfigs (handleRemoveConfig "EG" eg_added) !! "EG" = None.
Proof. vm_compute. split_and!; reflexivity. Qed.

(** * The theorems at concrete inputs *)

(** C1 at a caller config for US (trunk prefix "9", leading zero on), a
    second caller passing only the hint EG, and a dictionary entry for
    EG. *)
Lemma registry_entry_replaces_config_witness :
  override_config (default_config caller_US) {[ "EG" := eg_entry_stored ]}
    eg_mobile = eg_entry_stored
  ∧ phoneEngine (parser_knowing eg_raw eg_mobile) eg_raw caller_US
      {[ "EG" := eg_entry_stored ]}
    = Return (finish eg_raw eg_entry_stored eg_mobile)
  ∧ phoneEngine (parser_knowing eg_raw eg_mobile) eg_raw hint_EG
      {[ "EG" := eg_entry_stored ]}
    = phoneEngine (parser_knowing eg_raw eg_mobile) eg_raw caller_US
        {[ "EG" := eg_entry_stored ]}.
Proof.
  apply (registry_entry_replaces_config (parser_knowing eg_raw eg_mobile)
           eg_raw caller_US hint_EG {[ "EG" := eg_entry_stored ]}
           eg_mobile "EG" eg_entry_stored).
  - reflexivity.
  - reflexivity.
  - reflexivity.
  - vm_compute. reflexivity.
Defined.

(** C2 at the US number typed with a trailing tab under the hint EG. *)
Lemma country_gate_of_dial_format_witness :
  ∃ result,
    phoneEngine (parser_knowing us_raw_tab us_number) us_raw_tab hint_EG ∅
    = Return result
    ∧ let config := override_config (default_config hint_EG) ∅ us_number in
      (PhoneNumber.country us_number ≠ country config →
         forAsterisk result = replaceAll_space us_raw_tab)
      ∧ (PhoneNumber.country us_number = country config →
         forAsterisk result = candidate config us_number).
Proof.
  apply (country_gate_of_dial_format (parser_knowing us_raw_tab us_number)
           us_raw_tab hint_EG ∅ us_number).
  - reflexivity.
  - reflexivity.
  - reflexivity.
Defined.

(** C5 at an input the parser throws on. *)
Lemma unparseable_short_circuit_witness :
  phoneEngine parser_rejecting "abc" hint_EG ∅
  = Return {| e164 := ""; forAsterisk := ""; isValid := false |}.
Proof.
  apply (unparseable_short_circuit parser_rejecting "abc" hint_EG ∅).
  left. exists "NOT_A_NUMBER". reflexivity.
Defined.

(** C6 at the Egyptian number. *)
Lemma validity_and_e164_witness :
  ∃ result,
    phoneEngine (parser_knowing eg_raw eg_mobile) eg_raw hint_EG ∅
    = Return result
    ∧ isValid result = true && true
    ∧ e164 result = if true && true then "+201012345678" else "---".
Proof.
  apply (validity_and_e164 (parser_knowing eg_raw eg_mobile) eg_raw hint_EG ∅
           eg_mobile).
  reflexivity.
Defined.

(** C7 at the national number ["1012345678"]. *)
Lemma leading_zero_idempotent_witness :
  addLeadingZero leading_zero_config = true
  ∧ (startsWith "1012345678" "0" = false →
       processedNumber leading_zero_config "1012345678" = "01012345678")
  ∧ (startsWith "1012345678" "0" = true →
       processedNumber leading_zero_config "1012345678" = "1012345678")
  ∧ processedNumber leading_zero_config
      (processedNumber leading_zero_config "1012345678")
    = processedNumber leading_zero_config "1012345678".
Proof.
  split; [reflexivity|].
  apply (leading_zero_idempotent leading_zero_config "1012345678").
  reflexivity.
Defined.

(** C8 at the state with entries for EG and US and US the default. *)
Lemma remove_default_resets_witness :
  defaultConfig us_default = "US"
  ∧ defaultConfig (handleRemoveConfig "US" us_default) = fallback_country
  ∧ countryConfigs (handleRemoveConfig "US" us_default) !! "US" = None
  ∧ ("US" ≠ fallback_country →
     defaultConfig (handleRemoveConfig "US" us_default) ≠ "US").
Proof.
  split; [reflexivity|].
  apply (remove_default_resets "US" us_default).
  reflexivity.
Defined.

(** C10 at the example of C3. *)
Lemma declared_shape_never_matches_witness :
  country_matches
    (override_config (default_config hint_EG) {[ "EG" := eg_entry_declared ]}
       eg_mobile)
    eg_mobile = false
  ∧ ∃ result,
      phoneEngine (parser_knowing eg_raw eg_mobile) eg_raw hint_EG
        {[ "EG" := eg_entry_declared ]} = Return result
      ∧ forAsterisk result = replaceAll_space eg_raw.
Proof.
  apply (declared_shape_never_matches (parser_knowing eg_raw eg_mobile)
           eg_raw hint_EG {[ "EG" := eg_entry_declared ]} eg_mobile
           "EG" eg_entry_declared).
  - intros key e [_ <-]%lookup_singleton_Some. reflexivity.
  - reflexivity.
  - reflexivity.
  - vm_compute. reflexivity.
Defined.

(** * Further properties of [phoneEngine] and [handleProcess] *)

(** The characters of a string, in order. *)
Lemma replaceAll_space_chars (s : string) :
  String.list_ascii_of_string (replaceAll_space s)
  = filter (λ c, c ≠ " "%char) (String.list_ascii_of_string s).
Proof.
  induction s as [|c rest IH]; [reflexivity|].
  simpl. case_bool_decide as Hc.
  - rewrite filter_cons_False by (intros Hne; by apply Hne). exact IH.
  - rewrite filter_cons_True by exact Hc. simpl. by rewrite IH.
Qed.

Lemma replaceAll_space_unchanged (s : string) :
  " "%char ∉ String.list_ascii_of_string s → replaceAll_space s = s.
Proof.
  induction s as [|c rest IH]; [reflexivity|].
  simpl. intros Hnotin. apply not_elem_of_cons in Hnotin as [Hne Hrest].
  rewrite bool_decide_eq_false_2 by congruence. by rewrite IH.
Qed.

Lemma replaceAll_space_clean (s : string) :
  " "%char ∉ String.list_ascii_of_string (replaceAll_space s).
Proof.
  rewrite replaceAll_space_chars. intros [Hne _]%list_elem_of_filter. by apply Hne.
Qed.

Lemma empty_prefix_when_falsy (s : string) : truthy s = false → s = "".
Proof. by destruct s. Qed.

Lemma candidate_unfold (config : CountryConfig) (phoneNumber : PhoneNumber.t) :
  candidate config phoneNumber
  = trunkPrefix config
    +:+ processedNumber config (PhoneNumber.nationalNumber phoneNumber).
Proof.
  unfold candidate. cbv zeta.
  destruct (truthy (trunkPrefix config)) eqn:Hprefix; [reflexivity|].
  by rewrite (empty_prefix_when_falsy _ Hprefix).
Qed.

(** [s.replaceAll(' ', '')] keeps the characters of [s] other than U+0020,
    each as often as it occurs and in the order of [s]. *)
Theorem replaceAll_space_is_filter (s : string) :
  String.list_ascii_of_string (replaceAll_space s)
  = filter (λ c, c ≠ " "%char) (String.list_ascii_of_string s)
  ∧ (String.length (replaceAll_space s) ≤ String.length s)%nat.
Proof.
  split; [apply replaceAll_space_chars|].
  induction s as [|c rest IH]; [done|].
  simpl. case_bool_decide; simpl; lia.
Qed.

(** [replaceAll(' ', '')] returns its argument as it is exactly when the
    argument has no space, and applying it twice is applying it once. *)
Theorem replaceAll_space_fixed_point (s : string) :
  (replaceAll_space s = s ↔ " "%char ∉ String.list_ascii_of_string s)
  ∧ replaceAll_space (replaceAll_space s) = replaceAll_space s.
Proof.
  split.
  - split.
    + intros <-. apply replaceAll_space_clean.
    + apply replaceAll_space_unchanged.
  - apply replaceAll_space_unchanged, replaceAll_space_clean.
Qed.

(** The candidate of lines 55-57 is the trunk prefix followed by the
    processed number, whether the prefix is empty or not; so it is the
    trunk prefix, at most one added ['0'], and the national number. *)
Theorem candidate_is_concatenation
    (config : CountryConfig) (phoneNumber : PhoneNumber.t) :
  candidate config phoneNumber
  = trunkPrefix config
    +:+ processedNumber config (PhoneNumber.nationalNumber phoneNumber)
  ∧ ∃ zero,
      (zero = "" ∨ zero = "0")
      ∧ candidate config phoneNumber
        = trunkPrefix config +:+ zero +:+ PhoneNumber.nationalNumber phoneNumber.
Proof.
  split; [apply candidate_unfold|].
  rewrite candidate_unfold. unfold processedNumber.
  destruct (addLeadingZero config && _).
  - exists "0". split; [by right|reflexivity].
  - exists "". split; [by left|reflexivity].
Qed.

Section EngineAndProcess.
Variable parsePhoneNumber : Parser.

Implicit Types (number : string) (options : Options)
  (configs : Configs) (phoneNumber : PhoneNumber.t).

(** [handleProcess] never calls [setResult(null)]: [phoneEngine] throws on
    no input, so the [catch] of lines 81-84 is not reached and a result
    object is shown after every click on Normalize. *)
Theorem handleProcess_never_null number (s : State) :
  ∃ processed, handleProcess parsePhoneNumber number s = Some processed.
Proof.
  unfold handleProcess.
  destruct (phoneEngine_returns parsePhoneNumber number (default_options s)
              (countryConfigs s)) as [result ->].
  by exists result.
Qed.

(** A number the parser returns but does not report both valid and
    possible gives [e164 = "---"], [isValid = false] and the input without
    its spaces as [forAsterisk], whatever the options and the dictionary
    hold. *)
Theorem not_valid_keeps_input number options configs phoneNumber :
  parsePhoneNumber number (hint options) = Return (Some phoneNumber) →
  (PhoneNumber.isValid phoneNumber && PhoneNumber.isPossible phoneNumber) = false →
  phoneEngine parsePhoneNumber number options configs
  = Return {| e164 := "---";
              forAsterisk := replaceAll_space number;
              isValid := false |}.
Proof.
  intros Hparse Hvalid.
  rewrite (phoneEngine_parsed _ _ _ _ _ Hparse).
  unfold finish. cbv zeta. by rewrite Hvalid.
Qed.

(** Whenever the parser returns a number and the test of line 61 fails,
    [forAsterisk] has no space character and is not longer than the
    input. *)
Theorem fallback_has_no_space number options configs phoneNumber :
  parsePhoneNumber number (hint options) = Return (Some phoneNumber) →
  (PhoneNumber.isValid phoneNumber && PhoneNumber.isPossible phoneNumber
   && country_matches
        (override_config (default_config options) configs phoneNumber)
        phoneNumber) = false →
  ∃ result,
    phoneEngine parsePhoneNumber number options configs = Return result
    ∧ (" "%char ∉ String.list_ascii_of_string (forAsterisk result))
    ∧ (String.length (forAsterisk result) ≤ String.length number)%nat.
Proof.
  intros Hparse Hgate. eexists.
  split; [by apply phoneEngine_parsed|].
  rewrite forAsterisk_finish, Hgate.
  split; [apply replaceAll_space_clean|].
  clear. induction number as [|c rest IH]; [done|].
  simpl. case_bool_decide; simpl; lia.
Qed.

(** The result's [isValid] is [true] exactly when the parser returned a
    number that it reports valid and possible; it is [false] when the
    parser threw or returned [undefined]. *)
Theorem isValid_iff_parser_valid number options configs :
  ∃ result,
    phoneEngine parsePhoneNumber number options configs = Return result
    ∧ (isValid result = true
       ↔ ∃ phoneNumber,
           parsePhoneNumber number (hint options) = Return (Some phoneNumber)
           ∧ PhoneNumber.isValid phoneNumber = true
           ∧ PhoneNumber.isPossible phoneNumber = true).
Proof.
  destruct (parsePhoneNumber number (hint options))
    as [[phoneNumber|]|error] eqn:Hparse.
  - eexists. split; [by apply phoneEngine_parsed|]. simpl. split.
    + intros [Hvalid Hpossible]%andb_true_iff. by exists phoneNumber.
    + intros (? & [= <-] & -> & ->). reflexivity.
  - eexists. split; [by apply phoneEngine_undefined|]. simpl. split.
    + discriminate.
    + intros (? & [=] & _).
  - eexists. split; [by eapply phoneEngine_thrown|]. simpl. split.
    + discriminate.
    + intros (? & [=] & _).
Qed.

(** The dictionary is read at one key only, the detected country: two
    dictionaries that agree on that key give the same result, whatever
    their other entries. *)
Theorem registry_read_at_detected_country number options configs configs' :
  (∀ phoneNumber,
     parsePhoneNumber number (hint options) = Return (Some phoneNumber) →
     configs !! property_key (PhoneNumber.country phoneNumber)
     = configs' !! property_key (PhoneNumber.country phoneNumber)) →
  phoneEngine parsePhoneNumber number options configs
  = phoneEngine parsePhoneNumber number options configs'.
Proof.
  intros Hagree.
  destruct (parsePhoneNumber number (hint options))
    as [[phoneNumber|]|error] eqn:Hparse.
  - rewrite !(phoneEngine_parsed _ _ _ _ _ Hparse).
    unfold override_config. by rewrite (Hagree _ eq_refl).
  - by rewrite !(phoneEngine_undefined _ _ _ _ Hparse).
  - by rewrite !(phoneEngine_thrown _ _ _ _ _ Hparse).
Qed.

(** Without an entry for the detected country the caller's options stay in
    force: for a valid, possible number whose country is the caller's,
    [forAsterisk] is the caller's trunk prefix, then a ['0'] if the caller
    asked for one and the number has none, then the national number. *)
Theorem caller_fields_apply_without_entry number options configs phoneNumber :
  parsePhoneNumber number (hint options) = Return (Some phoneNumber) →
  configs !! property_key (PhoneNumber.country phoneNumber) = None →
  PhoneNumber.isValid phoneNumber = true →
  PhoneNumber.isPossible phoneNumber = true →
  PhoneNumber.country phoneNumber = hint options →
  ∃ result,
    phoneEngine parsePhoneNumber number options configs = Return result
    ∧ forAsterisk result
      = default "" (opt_trunkPrefix options)
        +:+ (if default false (opt_addLeadingZero options)
                && negb (startsWith (PhoneNumber.nationalNumber phoneNumber) "0")
             then "0" +:+ PhoneNumber.nationalNumber phoneNumber
             else PhoneNumber.nationalNumber phoneNumber).
Proof.
  intros Hparse Hmiss Hvalid Hpossible Hcountry. eexists.
  split; [by apply phoneEngine_parsed|].
  rewrite (override_config_miss _ _ _ Hmiss).
  rewrite forAsterisk_finish, Hvalid, Hpossible.
  unfold country_matches. rewrite bool_decide_eq_true_2 by exact Hcountry.
  simpl. by rewrite candidate_unfold.
Qed.

(** With an entry for the detected country that carries this country, as
    the entries stored by [handleAddConfig] do, a valid and possible number
    gets the entry's trunk prefix and leading zero, whatever the caller's
    options are. *)
Theorem stored_entry_yields_candidate
    number options configs phoneNumber B entry :
  parsePhoneNumber number (hint options) = Return (Some phoneNumber) →
  PhoneNumber.country phoneNumber = Some B →
  configs !! B = Some entry →
  country entry = Some B →
  PhoneNumber.isValid phoneNumber = true →
  PhoneNumber.isPossible phoneNumber = true →
  ∃ result,
    phoneEngine parsePhoneNumber number options configs = Return result
    ∧ forAsterisk result
      = trunkPrefix entry
        +:+ processedNumber entry (PhoneNumber.nationalNumber phoneNumber).
Proof.
  intros Hparse HB Hentry Hcountry Hvalid Hpossible. eexists.
  split; [by apply phoneEngine_parsed|].
  rewrite (override_config_entry _ _ _ _ _ HB Hentry).
  rewrite forAsterisk_finish, Hvalid, Hpossible.
  unfold country_matches. rewrite HB, Hcountry.
  rewrite bool_decide_eq_true_2 by reflexivity.
  simpl. apply candidate_unfold.
Qed.

End EngineAndProcess.

(** * Further properties of the configuration handlers *)

Section RegistryAlgebra.
Implicit Types (s : State) (key : string) (form : CountryConfig).

(** Adding the form and then removing its country leaves the dictionary as
    it was without that country; when the country had no entry before, the
    dictionary is back to what it was. *)
Theorem add_then_remove_restores s :
  countryConfigs
    (handleRemoveConfig (property_key (country (config s))) (handleAddConfig s))
  = delete (property_key (country (config s))) (countryConfigs s)
  ∧ (countryConfigs s !! property_key (country (config s)) = None →
     countryConfigs
       (handleRemoveConfig (property_key (country (config s))) (handleAddConfig s))
     = countryConfigs s).
Proof.
  simpl. rewrite delete_insert_eq.
  split; [reflexivity|]. intros Habsent. by apply delete_id.
Qed.

(** Adding is an upsert with last write wins: a second add for the same
    country replaces the first entry and leaves nothing of it, and
    clicking Add twice is clicking it once. *)
Theorem add_last_write_wins s form :
  property_key (country form) = property_key (country (config s)) →
  countryConfigs (handleAddConfig (setConfig form (handleAddConfig s)))
  = countryConfigs (handleAddConfig (setConfig form s))
  ∧ countryConfigs (handleAddConfig (setConfig form (handleAddConfig s)))
    !! property_key (country form) = Some form
  ∧ handleAddConfig (handleAddConfig s) = handleAddConfig s.
Proof.
  intros Hkey. split_and!.
  - simpl. rewrite Hkey. apply insert_insert_eq.
  - simpl. apply lookup_insert_eq.
  - unfold handleAddConfig. simpl. f_equal. apply insert_insert_eq.
Qed.

(** Removing a country twice is removing it once, and two removals can be
    done in either order: the dictionary and the default end up the
    same. *)
Theorem remove_idempotent_and_commutes key key' s :
  handleRemoveConfig key (handleRemoveConfig key s) = handleRemoveConfig key s
  ∧ handleRemoveConfig key (handleRemoveConfig key' s)
    = handleRemoveConfig key' (handleRemoveConfig key s).
Proof.
  unfold handleRemoveConfig, fallback_country. simpl. split.
  - f_equal; [apply delete_delete_eq|].
    repeat case_bool_decide; congruence.
  - f_equal; [apply delete_delete|].
    repeat case_bool_decide; congruence.
Qed.

End RegistryAlgebra.

(** * The states of the page *)

Lemma initial_state_well_formed : well_formed initial_state.
Proof.
  split_and!.
  - exists "EG". split; [reflexivity|]. unfold country_items. set_solver.
  - intros key entry Hentry. simpl in Hentry. by rewrite lookup_empty in Hentry.
  - by right.
Qed.

Lemma dispatch_well_formed (e : Event) (s : State) :
  well_formed s → available e s = true → well_formed (dispatch e s).
Proof.
  intros ((c & Hform & Hitem) & Hstored & Hdefault) Havailable.
  unfold well_formed.
  destruct e as [value|value|checked| |key|value]; simpl in *.
  - apply bool_decide_eq_true_1 in Havailable.
    split_and!; [by exists value|done|done].
  - split_and!; [by exists c|done|done].
  - split_and!; [by exists c|done|done].
  - rewrite Hform. simpl. split_and!.
    + by exists c.
    + intros key entry [[<- <-]|[Hne Hentry]]%lookup_insert_Some; [done|].
      by apply Hstored.
    + destruct Hdefault as [Hentry|Hfallback]; [left|by right].
      apply lookup_insert_is_Some. destruct (decide (c = defaultConfig s)); auto.
  - split_and!.
    + by exists c.
    + intros k entry [_ Hentry]%lookup_delete_Some. by apply Hstored.
    + clear Havailable. case_bool_decide as Hkey; [by right|].
      destruct Hdefault as [Hentry|Hfallback]; [left|by right].
      apply lookup_delete_is_Some. split; [congruence|done].
  - apply bool_decide_eq_true_1 in Havailable.
    split_and!; [by exists c|done|by left].
Qed.

Lemma reachable_well_formed (s : State) : reachable s → well_formed s.
Proof.
  induction 1 as [|s e Hreach IH Havailable].
  - apply initial_state_well_formed.
  - by apply dispatch_well_formed.
Qed.

Lemma run_reachable (events : list Event) (s s' : State) :
  reachable s → run events s = Some s' → reachable s'.
Proof.
  revert s. induction events as [|e rest IH]; intros s Hreach; simpl.
  - by intros [= <-].
  - destruct (available e s) eqn:Havailable; [|discriminate].
    apply IH. by apply reachable_step.
Qed.

Lemma well_formed_hint (s : State) :
  well_formed s →
  hint (default_options s)
  = if bool_decide (is_Some (countryConfigs s !! defaultConfig s))
    then Some (defaultConfig s) else Some "".
Proof.
  intros (_ & Hstored & _). unfold hint, default_options.
  destruct (countryConfigs s !! defaultConfig s) as [entry|] eqn:Hentry.
  - rewrite bool_decide_eq_true_2 by eauto.
    destruct (Hstored _ _ Hentry) as [Hcountry _]. simpl. by rewrite Hcountry.
  - rewrite bool_decide_eq_false_2 by (by intros [? [=]]). reflexivity.
Qed.

Section Page.
Variable parsePhoneNumber : Parser.
Implicit Types (s : State) (key : string) (entry : CountryConfig).

(** On the page, every entry of the dictionary carries its own key as
    [country], and the key is one of the three countries the form
    offers. *)
Theorem reachable_entries_carry_their_key s key entry :
  reachable s →
  countryConfigs s !! key = Some entry →
  country entry = Some key ∧ key ∈ country_items.
Proof.
  intros Hreach Hentry.
  destruct (reachable_well_formed s Hreach) as (_ & Hstored & _).
  by apply Hstored.
Qed.

(** On the page, the default country has an entry or is the fallback
    ["EG"]. *)
Theorem reachable_default_exists_or_fallback s :
  reachable s →
  is_Some (countryConfigs s !! defaultConfig s) ∨ defaultConfig s = "EG".
Proof.
  intros Hreach.
  by destruct (reachable_well_formed s Hreach) as (_ & _ & Hdefault).
Qed.

(** On the page, the dictionary never has more than three entries. *)
Theorem reachable_at_most_three_configs s :
  reachable s → (size (countryConfigs s) ≤ 3)%nat.
Proof.
  intros Hreach.
  destruct (reachable_well_formed s Hreach) as (_ & Hstored & _).
  rewrite <- size_dom.
  replace 3 with (size (list_to_set country_items : gset string)).
  - apply subseteq_size. intros key [entry Hentry]%elem_of_dom.
    apply elem_of_list_to_set. by apply (Hstored key entry).
  - by vm_compute.
Qed.

(** On the page, Normalize hints the parser with the default country when
    that country has an entry, and with the empty string when it has
    none, as on the initial page. *)
Theorem reachable_parse_hint s :
  reachable s →
  hint (default_options s)
  = if bool_decide (is_Some (countryConfigs s !! defaultConfig s))
    then Some (defaultConfig s) else Some "".
Proof. intros Hreach. by apply well_formed_hint, reachable_well_formed. Qed.

(** On the page, for every number the parser returns: [forAsterisk] is the
    trunk prefix and processed number of the detected country's entry when
    the number is valid and possible and that country has an entry, and
    the input without its spaces in every other case; the default
    country's entry serves as the parser's hint only. *)
Theorem reachable_dial_format number s (phoneNumber : PhoneNumber.t) :
  reachable s →
  parsePhoneNumber number (hint (default_options s))
  = Return (Some phoneNumber) →
  PhoneNumber.country phoneNumber ≠ Some "" →
  ∃ processed,
    handleProcess parsePhoneNumber number s = Some processed
    ∧ forAsterisk processed
      = match PhoneNumber.country phoneNumber with
        | Some detected =>
            match countryConfigs s !! detected with
            | Some entry =>
                if PhoneNumber.isValid phoneNumber
                   && PhoneNumber.isPossible phoneNumber
                then trunkPrefix entry
                     +:+ processedNumber entry
                           (PhoneNumber.nationalNumber phoneNumber)
                else replaceAll_space number
            | None => replaceAll_space number
            end
        | None => replaceAll_space number
        end.
Proof.
  intros Hreach Hparse Hnonempty.
  pose proof (reachable_well_formed s Hreach) as Hwf.
  pose proof (well_formed_hint s Hwf) as Hhint.
  destruct Hwf as (_ & Hstored & _).
  unfold handleProcess.
  rewrite (phoneEngine_parsed _ _ _ _ _ Hparse).
  eexists. split; [reflexivity|].
  rewrite forAsterisk_finish. unfold override_config, country_matches.
  assert (∀ detected,
            PhoneNumber.country phoneNumber = Some detected →
            countryConfigs s !! detected = None →
            Some detected ≠ country (default_config (default_options s)))
    as Hcaller.
  { intros detected Hdetected Hmiss. fold (hint (default_options s)).
    rewrite Hhint. case_bool_decide as Hdefault.
    - intros [= ->]. rewrite Hmiss in Hdefault. by destruct Hdefault.
    - intros [= ->]. by apply Hnonempty. }
  destruct (PhoneNumber.country phoneNumber) as [detected|] eqn:Hdetected; simpl.
  - destruct (countryConfigs s !! detected) as [entry|] eqn:Hentry.
    + destruct (Hstored _ _ Hentry) as [-> _].
      rewrite bool_decide_eq_true_2 by reflexivity.
      rewrite andb_true_r, candidate_unfold. reflexivity.
    + rewrite bool_decide_eq_false_2 by (by apply Hcaller).
      by rewrite andb_false_r.
  - destruct (countryConfigs s !! "undefined") as [entry|] eqn:Hentry.
    + destruct (Hstored _ _ Hentry) as [-> _].
      rewrite bool_decide_eq_false_2 by discriminate.
      by rewrite andb_false_r.
    + rewrite bool_decide_eq_false_2 by discriminate.
      by rewrite andb_false_r.
Qed.

End Page.

(** Every state of the page is the outcome of a list of offered events. *)
Lemma run_app (events : list Event) (e : Event) (s s' : State) :
  run events s = Some s' →
  available e s' = true →
  run (events ++ [e])%list s = Some (dispatch e s').
Proof.
  revert s. induction events as [|e' rest IH]; intros s; simpl.
  - intros [= ->] ->. reflexivity.
  - destruct (available e' s); [|discriminate]. apply IH.
Qed.

Lemma reachable_run (s : State) :
  reachable s → ∃ events, run events initial_state = Some s.
Proof.
  induction 1 as [|s e Hreach [events Hrun] Havailable].
  - by exists [].
  - exists (events ++ [e])%list. by apply run_app.
Qed.

(** * The further properties at concrete inputs *)

Lemma not_valid_keeps_input_witness :
  phoneEngine (parser_knowing eg_short_raw eg_short) eg_short_raw caller_EG
    {[ "EG" := eg_entry_stored ]}
  = Return {| e164 := "---"; forAsterisk := "+2012"; isValid := false |}.
Proof.
  apply (not_valid_keeps_input (parser_knowing eg_short_raw eg_short)
           eg_short_raw caller_EG {[ "EG" := eg_entry_stored ]} eg_short).
  - reflexivity.
  - reflexivity.
Defined.

Lemma fallback_has_no_space_witness :
  ∃ result,
    phoneEngine (parser_knowing us_raw_tab us_number) us_raw_tab hint_EG ∅
    = Return result
    ∧ (" "%char ∉ String.list_ascii_of_string (forAsterisk result))
    ∧ (String.length (forAsterisk result) ≤ String.length us_raw_tab)%nat.
Proof.
  apply (fallback_has_no_space (parser_knowing us_raw_tab us_number)
           us_raw_tab hint_EG ∅ us_number).
  - reflexivity.
  - vm_compute. reflexivity.
Defined.

Lemma registry_read_at_detected_country_witness :
  phoneEngine (parser_knowing eg_raw eg_mobile) eg_raw caller_US
    {[ "EG" := eg_entry_stored ]}
  = phoneEngine (parser_knowing eg_raw eg_mobile) eg_raw caller_US
      (<["US" := us_entry_stored]> {[ "EG" := eg_entry_stored ]}).
Proof.
  apply (registry_read_at_detected_country (parser_knowing eg_raw eg_mobile)
           eg_raw caller_US {[ "EG" := eg_entry_stored ]}
           (<["US" := us_entry_stored]> {[ "EG" := eg_entry_stored ]})).
  intros phoneNumber Hparse. vm_compute in Hparse.
  injection Hparse as <-. vm_compute. reflexivity.
Defined.

Lemma caller_fields_apply_without_entry_witness :
  ∃ result,
    phoneEngine (parser_knowing eg_raw eg_mobile) eg_raw caller_EG ∅
    = Return result
    ∧ forAsterisk result = "901012345678".
Proof.
  apply (caller_fields_apply_without_entry (parser_knowing eg_raw eg_mobile)
           eg_raw caller_EG ∅ eg_mobile).
  - reflexivity.
  - reflexivity.
  - reflexivity.
  - reflexivity.
  - reflexivity.
Defined.

Lemma stored_entry_yields_candidate_witness :
  ∃ result,
    phoneEngine (parser_knowing eg_raw eg_mobile) eg_raw caller_US
      {[ "EG" := eg_entry_stored ]} = Return result
    ∧ forAsterisk result = "01012345678".
Proof.
  apply (stored_entry_yields_candidate (parser_knowing eg_raw eg_mobile)
           eg_raw caller_US {[ "EG" := eg_entry_stored ]} eg_mobile
           "EG" eg_entry_stored).
  - reflexivity.
  - reflexivity.
  - vm_compute. reflexivity.
  - reflexivity.
  - reflexivity.
  - reflexivity.
Defined.

Lemma add_last_write_wins_witness :
  countryConfigs (handleAddConfig (setConfig eg_entry_revised (handleAddConfig eg_added)))
  = countryConfigs (handleAddConfig (setConfig eg_entry_revised eg_added))
  ∧ countryConfigs (handleAddConfig (setConfig eg_entry_revised (handleAddConfig eg_added)))
    !! "EG" = Some eg_entry_revised
  ∧ handleAddConfig (handleAddConfig eg_added) = handleAddConfig eg_added.
Proof.
  apply (add_last_write_wins eg_added eg_entry_revised).
  reflexivity.
Defined.

Lemma reachable_entries_carry_their_key_witness :
  country us_entry_stored = Some "US" ∧ "US" ∈ country_items.
Proof.
  apply (reachable_entries_carry_their_key us_default "US" us_entry_stored).
  - apply (run_reachable us_default_events initial_state);
      [apply reachable_initial | vm_compute; reflexivity].
  - vm_compute. reflexivity.
Defined.

Lemma reachable_default_exists_or_fallback_witness :
  is_Some (countryConfigs us_default !! defaultConfig us_default)
  ∨ defaultConfig us_default = "EG".
Proof.
  apply (reachable_default_exists_or_fallback us_default).
  apply (run_reachable us_default_events initial_state);
    [apply reachable_initial | vm_compute; reflexivity].
Defined.

Lemma reachable_at_most_three_configs_witness :
  (size (countryConfigs us_default) ≤ 3)%nat.
Proof.
  apply (reachable_at_most_three_configs us_default).
  apply (run_reachable us_default_events initial_state);
    [apply reachable_initial | vm_compute; reflexivity].
Defined.

Lemma reachable_parse_hint_witness :
  hint (default_options us_default) = Some "US".
Proof.
  apply (reachable_parse_hint us_default).
  apply (run_reachable us_default_events initial_state);
    [apply reachable_initial | vm_compute; reflexivity].
Defined.

(** On the initial page the hint is the empty string, not ["EG"]. *)
Example initial_parse_hint : hint (default_options initial_state) = Some "".
Proof. reflexivity. Qed.

Lemma reachable_dial_format_witness :
  ∃ processed,
    handleProcess (parser_knowing eg_raw eg_mobile) eg_raw us_default
    = Some processed
    ∧ forAsterisk processed = "01012345678".
Proof.
  apply (reachable_dial_format (parser_knowing eg_raw eg_mobile) eg_raw
           us_default eg_mobile).
  - apply (run_reachable us_default_events initial_state);
      [apply reachable_initial | vm_compute; reflexivity].
  - reflexivity.
  - discriminate.
Defined.

(** * The example of the spec on the page *)



(** C10 as stated fails for a number without a country: the lookup of line
    44 is made at the key ["undefined"], an entry of the declared shape
    stored there replaces the config, [undefined === undefined] holds on
    line 61, and [forAsterisk] is the trunk-prefixed candidate, not the
    input without its spaces. *)
Lemma declared_shape_matches_without_country :
  (∀ key entry, undefined_keyed !! key = Some entry → country entry = None)
  ∧ parser_knowing freephone_raw freephone freephone_raw (hint no_options)
    = Return (Some freephone)
  ∧ undefined_keyed !! property_key (PhoneNumber.country freephone)
    = Some eg_entry_declared
  ∧ override_config (default_config no_options) undefined_keyed freephone
    = eg_entry_declared
  ∧ country_matches eg_entry_declared freephone = true
  ∧ phoneEngine (parser_knowing freephone_raw freephone) freephone_raw
      no_options undefined_keyed
    = Return {| e164 := "+80012345678";
                forAsterisk := "012345678";
                isValid := true |}
  ∧ candidate eg_entry_declared freephone = "012345678"
  ∧ replaceAll_space freephone_raw = "+80012345678"
  ∧ "012345678" ≠ replaceAll_space freephone_raw.
Proof.
  split.
  - unfold undefined_keyed.
    intros key entry [_ <-]%lookup_singleton_Some. reflexivity.
  - vm_compute. split_and!; done.
Qed.
